(** * hello-mcp-python: the two tool handlers of [server.py]

    [server.py] registers two callbacks with an MCP server object:
    [list_tools], which enumerates the tool descriptors, and [call_tool],
    which dispatches on a tool name.  The server object, its transport and
    the decorators that register the callbacks belong to the [mcp] package
    and are outside this development; the two callbacks are embedded here
    as functions in a small state-and-exception monad over the ambient
    world (the wall clock), run under the limits of the interpreter.

    Both callbacks are [async def] without any [await] in their body:
    awaiting the coroutine runs the body from start to end, which is what
    the monadic computation stands for. *)

From Stdlib Require Import ZArith Ascii String List Lia.
From stdpp Require Import base option gmap strings list.

#[local] Set Warnings "-register-all".
Local Open Scope Z_scope.

(* ===================================================================== *)
(** * Python values                                                      *)
(* ===================================================================== *)

(** The values a JSON-decoded argument mapping holds.  A character of a
    Rocq string stands for the Unicode code point with the same number
    (U+0000 to U+00FF).  A [float] is carried by its [repr] text, which
    identifies it.  Nested dictionaries keep their insertion order, which
    [repr] shows. *)
Inductive value : Type :=
| VNone
| VBool (b : bool)
| VInt (z : Z)
| VFloat (repr : string)
| VStr (s : string)
| VList (xs : list value)
| VDict (kvs : list (string * value)).

(** The [arguments] parameter of [call_tool]: a [dict] with [str] keys.
    The handler only subscripts it, so it is a finite map. *)
Abbreviation dict := (gmap string value).

(** ** Exceptions and outcomes *)

(** The exceptions the handlers let out: [KeyError(key)] from a failed
    subscript, [ValueError(message)] from the [raise] statement and from
    [str] of an over-long [int], [RecursionError(message)] from [repr] of
    a value nested too deep. *)
Inductive exn : Type :=
| KeyError (key : string)
| ValueError (message : string)
| RecursionError (message : string).

Inductive outcome (A : Type) : Type :=
| Return (a : A)
| Raise (e : exn).
Arguments Return {A} a.
Arguments Raise {A} e.

#[global] Instance outcome_ret : MRet outcome :=
  fun A a => Return a.

#[global] Instance outcome_bind : MBind outcome :=
  fun A B f m =>
    match m with
    | Return a => f a
    | Raise e => Raise e
    end.

(** [f] on the items of a list, from the left; the first exception ends
    the loop. *)
Fixpoint traverse {A B : Type} (f : A -> outcome B) (xs : list A)
  : outcome (list B) :=
  match xs with
  | [] => Return []
  | x :: xs' => y ← f x; ys ← traverse f xs'; Return (y :: ys)
  end.

(** ** The limits of the interpreter

    [int_max_str_digits] is [sys.get_int_max_str_digits()]: 0 for no
    limit, otherwise at least 640 (the interpreter accepts no other
    setting), 4300 unless configured.  [recursion_budget] is the number of
    nested [repr] calls that the recursion limit still admits at the point
    where the handler formats its text. *)
Record interpreter : Type := mkInterpreter {
  int_max_str_digits : Z;
  recursion_budget : nat
}.

(** ** Decimal rendering of integers *)

Definition digit_char (d : Z) : ascii :=
  ascii_of_N (Z.to_N (48 + d)).

(** The [w] low decimal digits of [n], most significant first. *)
Fixpoint digits (w : nat) (n : Z) : string :=
  match w with
  | O => ""
  | S w' => String (digit_char ((n / 10 ^ Z.of_nat w') mod 10)) (digits w' n)
  end.

Fixpoint ndigits_go (fuel : nat) (n : Z) : nat :=
  match fuel with
  | O => 1%nat
  | S f => if n <? 10 then 1%nat else S (ndigits_go f (n / 10))
  end.

(** Number of decimal digits of [n >= 0] (1 for 0). *)
Definition ndigits (n : Z) : nat :=
  ndigits_go (Z.to_nat (Z.log2 n)) n.

(** ["%0<w>d" % z]: at least [w] characters, zero-padded after the sign.
    [w = 0] is [str(z)]. *)
Definition format_d (w : nat) (z : Z) : string :=
  if z <? 0
  then "-" +:+ digits (Nat.max (w - 1) (ndigits (- z))) (- z)
  else digits (Nat.max w (ndigits z)) z.

(** ** [repr] and [str] *)

Definition hex_char (d : Z) : ascii :=
  if d <? 10 then digit_char d else ascii_of_N (Z.to_N (87 + d)).

Definition code (c : ascii) : Z := Z.of_N (N_of_ascii c).

(** [str.isprintable] on one code point below 256. *)
Definition isprintable (c : ascii) : bool :=
  let n := code c in
  (32 <=? n) && (n <? 127) || (161 <=? n) && negb (n =? 173).

Definition escape_char (quote c : ascii) : string :=
  if (Ascii.eqb c quote || Ascii.eqb c "\")%bool then String "\" (String c "")
  else if code c =? 9 then "\t"
  else if code c =? 10 then "\n"
  else if code c =? 13 then "\r"
  else if isprintable c then String c ""
  else String "\" (String "x" (String (hex_char (code c / 16))
                                (String (hex_char (code c mod 16)) ""))).

Fixpoint escape (quote : ascii) (s : string) : string :=
  match s with
  | EmptyString => ""
  | String c s' => escape_char quote c +:+ escape quote s'
  end.

Definition squote : ascii := ascii_of_N 39.
Definition dquote : ascii := ascii_of_N 34.

Fixpoint has_char (c : ascii) (s : string) : bool :=
  match s with
  | EmptyString => false
  | String c' s' => Ascii.eqb c c' || has_char c s'
  end.

(** [repr(s)] for a [str]: single quotes, unless the text has a single
    quote and no double quote. *)
Definition str_repr (s : string) : string :=
  let quote : ascii :=
    if has_char squote s && negb (has_char dquote s) then dquote else squote in
  String quote (escape quote s +:+ String quote "").

(** [sep.join(xs)] *)
Fixpoint join (sep : string) (xs : list string) : string :=
  match xs with
  | [] => ""
  | [x] => x
  | x :: xs' => x +:+ sep +:+ join sep xs'
  end.

(** The message of the [ValueError] for an [int] with too many digits. *)
Definition int_limit_message (I : interpreter) : string :=
  "Exceeds the limit (" +:+ format_d 0 (int_max_str_digits I) +:+
  " digits) for integer string conversion; " +:+
  "use sys.set_int_max_str_digits() to increase the limit".

(** [str(z)], [repr(z)] for an [int]: refused when a limit is set and [z]
    has more decimal digits (the sign apart) than the limit. *)
Definition int_str (I : interpreter) (z : Z) : outcome string :=
  if (0 <? int_max_str_digits I) &&
     (int_max_str_digits I <? Z.of_nat (ndigits (Z.abs z)))
  then Raise (ValueError (int_limit_message I))
  else Return (format_d 0 z).

Definition recursion_message : string :=
  "maximum recursion depth exceeded while getting the repr of an object".

(** [repr(v)] with [budget] nested [repr] calls left: every call takes
    one, the items of a list or dictionary are rendered inside it. *)
Fixpoint py_repr (I : interpreter) (budget : nat) (v : value)
  : outcome string :=
  match budget with
  | O => Raise (RecursionError recursion_message)
  | S b =>
      match v with
      | VNone => Return "None"
      | VBool true => Return "True"
      | VBool false => Return "False"
      | VInt z => int_str I z
      | VFloat r => Return r
      | VStr s => Return (str_repr s)
      | VList xs =>
          parts ← traverse (py_repr I b) xs;
          Return ("[" +:+ join ", " parts +:+ "]")
      | VDict kvs =>
          parts ← traverse (fun kv : string * value =>
                              x ← py_repr I b (snd kv);
                              Return (str_repr (fst kv) +:+ ": " +:+ x)) kvs;
          Return ("{" +:+ join ", " parts +:+ "}")
      end
  end.

(** [format(v, "")], what a replacement field [{v}] of an f-string puts
    into the text: the text itself for a [str], [repr] for the others. *)
Definition py_format (I : interpreter) (v : value) : outcome string :=
  match v with
  | VStr s => Return s
  | _ => py_repr I (recursion_budget I) v
  end.

(* ===================================================================== *)
(** * [datetime]                                                         *)
(* ===================================================================== *)

(** A naive [datetime] object, as [datetime.now()] returns it. *)
Record datetime : Type := mkDatetime {
  year : Z;
  month : Z;
  day : Z;
  hour : Z;
  minute : Z;
  second : Z;
  microsecond : Z
}.

Definition is_leap (y : Z) : bool :=
  (y mod 4 =? 0) && (negb (y mod 100 =? 0) || (y mod 400 =? 0)).

Definition days_in_month (y m : Z) : Z :=
  if m =? 2 then (if is_leap y then 29 else 28)
  else if (m =? 4) || (m =? 6) || (m =? 9) || (m =? 11) then 30
  else 31.

(** The invariant of the [datetime] class (its constructor checks it):
    [MINYEAR = 1], [MAXYEAR = 9999]. *)
Definition valid_datetime (d : datetime) : bool :=
  (1 <=? year d) && (year d <=? 9999) &&
  (1 <=? month d) && (month d <=? 12) &&
  (1 <=? day d) && (day d <=? days_in_month (year d) (month d)) &&
  (0 <=? hour d) && (hour d <=? 23) &&
  (0 <=? minute d) && (minute d <=? 59) &&
  (0 <=? second d) && (second d <=? 59) &&
  (0 <=? microsecond d) && (microsecond d <=? 999999).

(** [d.isoformat()] with the default separator and [timespec="auto"]:
    [YYYY-MM-DDTHH:MM:SS], then [.ffffff] when the microsecond is not 0.
    A naive [datetime] has no UTC offset to append. *)
Definition isoformat (d : datetime) : string :=
  format_d 4 (year d) +:+ "-" +:+ format_d 2 (month d) +:+ "-" +:+
  format_d 2 (day d) +:+ "T" +:+ format_d 2 (hour d) +:+ ":" +:+
  format_d 2 (minute d) +:+ ":" +:+ format_d 2 (second d) +:+
  (if microsecond d =? 0 then "" else "." +:+ format_d 6 (microsecond d)).

(** ** Reading an ISO-8601 date-time back

    The reader that "parses as a valid date-time" refers to: the extended
    format [YYYY-MM-DDTHH:MM:SS] with an optional fraction of six digits,
    accepted only when the fields form a valid [datetime]. *)

Definition digit_val (c : ascii) : option Z :=
  let n := code c in
  if (48 <=? n) && (n <=? 57) then Some (n - 48) else None.

(** Reads exactly [w] decimal digits, most significant first. *)
Fixpoint read_digits (w : nat) (acc : Z) (s : string) : option (Z * string) :=
  match w with
  | O => Some (acc, s)
  | S w' =>
      match s with
      | EmptyString => None
      | String c s' => d ← digit_val c; read_digits w' (10 * acc + d) s'
      end
  end.

Definition expect (c : ascii) (s : string) : option string :=
  match s with
  | String c' s' => if Ascii.eqb c c' then Some s' else None
  | EmptyString => None
  end.

Definition read_fraction (s : string) : option Z :=
  match s with
  | EmptyString => Some 0
  | String c s' =>
      if Ascii.eqb c "." then
        '(us, rest) ← read_digits 6 0 s';
        match rest with EmptyString => Some us | _ => None end
      else None
  end.

Definition parse_iso8601 (s : string) : option datetime :=
  '(y, s) ← read_digits 4 0 s;
  s ← expect "-" s;
  '(mo, s) ← read_digits 2 0 s;
  s ← expect "-" s;
  '(d, s) ← read_digits 2 0 s;
  s ← expect "T" s;
  '(h, s) ← read_digits 2 0 s;
  s ← expect ":" s;
  '(mi, s) ← read_digits 2 0 s;
  s ← expect ":" s;
  '(sec, s) ← read_digits 2 0 s;
  us ← read_fraction s;
  let dt := mkDatetime y mo d h mi sec us in
  if valid_datetime dt then Some dt else None.

(* ===================================================================== *)
(** * The handler monad                                                  *)
(* ===================================================================== *)

(** What a handler can observe of its surroundings: the wall clock. *)
Record world : Type := mkWorld {
  wall_clock : datetime
}.

(** A handler runs under an interpreter, reads and passes on the world,
    and returns or raises. *)
Definition handler (A : Type) : Type :=
  interpreter -> world -> outcome A * world.

#[global] Instance handler_ret : MRet handler :=
  fun A a I w => (Return a, w).

#[global] Instance handler_bind : MBind handler :=
  fun A B f m I w =>
    match m I w with
    | (Return a, w') => f a I w'
    | (Raise e, w') => (Raise e, w')
    end.

Definition raise {A : Type} (e : exn) : handler A :=
  fun I w => (Raise e, w).

(** [datetime.now()] *)
Definition datetime_now : handler datetime :=
  fun I w => (Return (wall_clock w), w).

(** [d[key]] on a [dict] *)
Definition getitem (d : dict) (key : string) : handler value :=
  match d !! key with
  | Some v => mret v
  | None => raise (KeyError key)
  end.

(** The replacement field [{v}] of an f-string. *)
Definition format_value (v : value) : handler string :=
  fun I w => (py_format I v, w).

(* ===================================================================== *)
(** * [server.py]                                                        *)
(* ===================================================================== *)

(** [mcp.types.Tool] and [mcp.types.TextContent], with the fields the
    script sets. *)
Record Tool : Type := mkTool {
  name : string;
  description : string;
  inputSchema : value
}.

Record TextContent : Type := mkTextContent {
  type : string;
  text : string
}.

Definition list_tools : handler (list Tool) :=
  mret [
    mkTool "hello" "Say hello to someone"
      (VDict [
        ("type", VStr "object");
        ("properties", VDict [
          ("name", VDict [("type", VStr "string");
                          ("description", VStr "The name to greet")])
        ]);
        ("required", VList [VStr "name"])
      ]);
    mkTool "time" "Get the current time"
      (VDict [("type", VStr "object"); ("properties", VDict [])])
  ].

Definition call_tool (name : string) (arguments : dict)
  : handler (list TextContent) :=
  if String.eqb name "hello" then
    v ← getitem arguments "name";
    s ← format_value v;
    mret [mkTextContent "text" ("Hello, " +:+ s +:+ "! Welcome to MCP.")]
  else if String.eqb name "time" then
    now ← datetime_now;
    mret [mkTextContent "text" ("Current time: " +:+ isoformat now)]
  else
    raise (ValueError ("Unknown tool: " +:+ name)).

(* ===================================================================== *)
(** * Vocabulary of the properties                                       *)
(* ===================================================================== *)

(** [s.startswith(pre)] *)
Fixpoint startswith (pre s : string) : bool :=
  match pre, s with
  | EmptyString, _ => true
  | String a pre', String b s' => Ascii.eqb a b && startswith pre' s'
  | String _ _, EmptyString => false
  end.

(** [sub in s] on [str]. *)
Fixpoint includes (sub s : string) : bool :=
  startswith sub s ||
  match s with
  | EmptyString => false
  | String _ s' => includes sub s'
  end.

(** The "unknown tool" error: the [ValueError] of the last branch. *)
Definition is_unknown_tool {A : Type} (o : outcome A) : bool :=
  match o with
  | Raise (ValueError m) => startswith "Unknown tool: " m
  | _ => false
  end.

(** The generic lookup error of a failed subscript. *)
Definition is_lookup_error (e : exn) : bool :=
  match e with
  | KeyError _ => true
  | ValueError _ => false
  | RecursionError _ => false
  end.

(** The names of the descriptors [list_tools] returns. *)
Definition registered_names (I : interpreter) (w : world) : list string :=
  match fst (list_tools I w) with
  | Return tools => map name tools
  | Raise _ => []
  end.

(** [d.get(key)] on a nested dictionary value. *)
Fixpoint assoc (key : string) (kvs : list (string * value)) : option value :=
  match kvs with
  | [] => None
  | (k, v) :: kvs' => if String.eqb k key then Some v else assoc key kvs'
  end.

Definition subscript (key : string) (v : value) : option value :=
  match v with
  | VDict kvs => assoc key kvs
  | _ => None
  end.

(** [schema["properties"][prop]["type"]]: the type a schema declares for
    a property. *)
Definition declared_type (schema : value) (prop : string) : option value :=
  props ← subscript "properties" schema;
  entry ← subscript prop props;
  subscript "type" entry.

(** [schema["required"]] *)
Definition declared_required (schema : value) : option value :=
  subscript "required" schema.

(** An [int] within the digit limit: no limit is set, or the magnitude
    is below [10 ^ limit]. *)
Definition int_fits (I : interpreter) (z : Z) : bool :=
  (int_max_str_digits I <=? 0) || (Z.abs z <? 10 ^ int_max_str_digits I).

(** A value within the limits for [budget] nested [repr] calls: every
    [int] in it within the digit limit, and no item further down than the
    budget reaches. *)
Fixpoint fits (I : interpreter) (budget : nat) (v : value) : bool :=
  match budget with
  | O => false
  | S b =>
      match v with
      | VInt z => int_fits I z
      | VList xs => forallb (fits I b) xs
      | VDict kvs => forallb (fun kv : string * value => fits I b (snd kv)) kvs
      | _ => true
      end
  end.

(** A value that the interpreter can format: any [str], and any other
    value within the limits. *)
Definition renderable (I : interpreter) (v : value) : bool :=
  match v with
  | VStr _ => true
  | _ => fits I (recursion_budget I) v
  end.

(** A world to run the handlers in: 3 November 2026, 09:05:00.000120. *)
Definition a_world : world :=
  mkWorld (mkDatetime 2026 11 3 9 5 0 120).

(** An interpreter to run them under: the digit limit as shipped, and
    room for a thousand nested [repr] calls. *)
Definition an_interpreter : interpreter :=
  mkInterpreter 4300 1000.

(** [[[...[]...]]]: the empty list inside [k] lists. *)
Fixpoint nested (k : nat) : value :=
  match k with
  | O => VList []
  | S k' => VList [nested k']
  end.

(** Values of every kind for the renderer: quotes of both kinds, a
    backslash, a line feed, code points 1, 127, 160 and 233. *)
Definition sample_value : value :=
  VList [
    VStr "Ada"; VStr "it's";
    VStr (String dquote "hi" +:+ String dquote "");
    VStr ("'" +:+ String dquote "\");
    VStr (String (ascii_of_N 10) (String (ascii_of_N 1)
           (String (ascii_of_N 127) (String (ascii_of_N 160)
             (String (ascii_of_N 233) "")))));
    VInt 0; VInt (-7); VInt 1234567890123;
    VBool true; VBool false; VNone; VFloat "1.5";
    VList []; VList [VInt 1];
    VDict []; VDict [("k", VList [VNone; VNone]); ("it's", VStr "v")]
  ].

Definition sample_text : string :=
  "['Ada', " +:+ String dquote "it's" +:+ String dquote ", '" +:+
  String dquote "hi" +:+ String dquote "', '\'" +:+ String dquote "\\', " +:+
  "'\n\x01\x7f\xa0" +:+ String (ascii_of_N 233) "', " +:+
  "0, -7, 1234567890123, True, False, None, 1.5, [], [1], {}, " +:+
  "{'k': [None, None], " +:+ String dquote "it's" +:+ String dquote ": 'v'}]".

(** Lexicographic combination of two comparisons. *)
Definition lexico (c1 c2 : comparison) : comparison :=
  match c1 with
  | Eq => c2
  | _ => c1
  end.

(** The order of naive [datetime] objects: that of their field tuples
    [(year, month, day, hour, minute, second, microsecond)]. *)
Definition datetime_compare (d1 d2 : datetime) : comparison :=
  lexico (year d1 ?= year d2)
 (lexico (month d1 ?= month d2)
 (lexico (day d1 ?= day d2)
 (lexico (hour d1 ?= hour d2)
 (lexico (minute d1 ?= minute d2)
 (lexico (second d1 ?= second d2)
         (microsecond d1 ?= microsecond d2)))))).

(** The keys a schema lists under "required"; none when the entry is
    absent. *)
Definition required_keys (schema : value) : list string :=
  match subscript "required" schema with
  | Some (VList xs) =>
      flat_map (fun x => match x with VStr k => [k] | _ => [] end) xs
  | _ => []
  end.

(** The keys of [schema["properties"]]. *)
Definition declared_properties (schema : value) : list string :=
  match subscript "properties" schema with
  | Some (VDict kvs) => map fst kvs
  | _ => []
  end.

(* ===================================================================== *)
(** * Decimal digits: writing and reading back                           *)
(* ===================================================================== *)

Lemma append_cons (c : ascii) (s t : string) :
  String c s +:+ t = String c (s +:+ t).
Proof. reflexivity. Qed.

Lemma append_char (c : ascii) (t : string) :
  String c "" +:+ t = String c t.
Proof. reflexivity. Qed.

Lemma append_empty_r (s : string) : s +:+ "" = s.
Proof. induction s as [|c s IH]; [reflexivity|]. rewrite append_cons, IH. reflexivity. Qed.

Lemma pow10_pos (w : nat) : 0 < 10 ^ Z.of_nat w.
Proof. apply Z.pow_pos_nonneg; lia. Qed.

Lemma pow10_succ (w : nat) : 10 ^ Z.of_nat (S w) = 10 * 10 ^ Z.of_nat w.
Proof. rewrite Nat2Z.inj_succ, Z.pow_succ_r by lia. reflexivity. Qed.

Lemma ndigits_go_le (fuel : nat) :
  forall (n : Z) (w : nat),
    (1 <= w)%nat -> 0 <= n < 10 ^ Z.of_nat w -> (ndigits_go fuel n <= w)%nat.
Proof.
  induction fuel as [|f IH]; intros n w Hw Hn; simpl; [lia|].
  destruct (Z.ltb_spec n 10) as [Hlt|Hge]; [lia|].
  destruct w as [|w']; [lia|].
  destruct w' as [|w''].
  - change (10 ^ Z.of_nat 1) with 10 in Hn. lia.
  - apply le_n_S, IH; [lia|].
    rewrite pow10_succ in Hn.
    split; [apply Z.div_pos; lia|].
    apply Z.div_lt_upper_bound; lia.
Qed.

Lemma format_d_digits (w : nat) (n : Z) :
  (1 <= w)%nat -> 0 <= n < 10 ^ Z.of_nat w -> format_d w n = digits w n.
Proof.
  intros Hw Hn. unfold format_d.
  destruct (Z.ltb_spec n 0) as [?|_]; [lia|].
  pose proof (ndigits_go_le (Z.to_nat (Z.log2 n)) n w Hw Hn) as Hle.
  unfold ndigits. rewrite Nat.max_l by exact Hle. reflexivity.
Qed.

Lemma digit_val_digit_char (d : Z) :
  0 <= d < 10 -> digit_val (digit_char d) = Some d.
Proof.
  intros Hd.
  assert (d = 0 \/ d = 1 \/ d = 2 \/ d = 3 \/ d = 4 \/
          d = 5 \/ d = 6 \/ d = 7 \/ d = 8 \/ d = 9) as Hcases by lia.
  repeat (destruct Hcases as [->|Hcases]; [reflexivity|]).
  subst d. reflexivity.
Qed.

Lemma read_digits_digits (w : nat) :
  forall (n acc : Z) (rest : string),
    0 <= n ->
    read_digits w acc (digits w n +:+ rest)
    = Some (acc * 10 ^ Z.of_nat w + n mod 10 ^ Z.of_nat w, rest).
Proof.
  induction w as [|w IH]; intros n acc rest Hn.
  - simpl. rewrite Z.mod_1_r. do 2 f_equal. lia.
  - simpl digits. rewrite append_cons. simpl read_digits.
    pose proof (pow10_pos w) as Hpos.
    rewrite digit_val_digit_char by (apply Z.mod_pos_bound; lia).
    simpl. rewrite IH by exact Hn.
    do 2 f_equal. rewrite pow10_succ.
    rewrite (Z.mul_comm 10 (10 ^ Z.of_nat w)).
    rewrite (Z.rem_mul_r n (10 ^ Z.of_nat w) 10) by lia.
    lia.
Qed.

Lemma read_digits_format_d (w : nat) (n : Z) (rest : string) :
  (1 <= w)%nat -> 0 <= n < 10 ^ Z.of_nat w ->
  read_digits w 0 (format_d w n +:+ rest) = Some (n, rest).
Proof.
  intros Hw Hn. rewrite format_d_digits by assumption.
  rewrite read_digits_digits by lia.
  rewrite Z.mod_small by exact Hn. reflexivity.
Qed.

(** [ndigits] has fuel enough: [str(n)] loses no digit of [n] and, from
    10 on, starts with no zero. *)
Lemma ndigits_go_upper (fuel : nat) :
  forall n : Z,
    0 <= n < 2 ^ Z.of_nat (S fuel) -> n < 10 ^ Z.of_nat (ndigits_go fuel n).
Proof.
  induction fuel as [|f IH]; intros n Hn.
  - change (2 ^ Z.of_nat 1) with 2 in Hn. simpl. lia.
  - cbn [ndigits_go].
    destruct (Z.ltb_spec n 10) as [Hlt|Hge];
      [change (10 ^ Z.of_nat 1) with 10; lia|].
    rewrite pow10_succ.
    assert (0 <= n / 10 < 2 ^ Z.of_nat (S f)) as Hdiv.
    { rewrite (Nat2Z.inj_succ (S f)), Z.pow_succ_r in Hn by lia.
      split; [apply Z.div_pos; lia|].
      apply Z.div_lt_upper_bound; lia. }
    specialize (IH _ Hdiv).
    pose proof (Z.div_mod n 10 ltac:(lia)) as Hdm.
    pose proof (Z.mod_pos_bound n 10 ltac:(lia)) as Hmod.
    lia.
Qed.

Lemma ndigits_upper (n : Z) : 0 <= n -> n < 10 ^ Z.of_nat (ndigits n).
Proof.
  intros Hn. apply ndigits_go_upper. split; [exact Hn|].
  rewrite Nat2Z.inj_succ, Z2Nat.id by apply Z.log2_nonneg.
  destruct (Z.eq_dec n 0) as [->|Hne]; [reflexivity|].
  apply Z.log2_spec. lia.
Qed.

Lemma ndigits_go_lower (fuel : nat) :
  forall n : Z,
    10 <= n -> 10 ^ Z.of_nat (Nat.pred (ndigits_go (S fuel) n)) <= n.
Proof.
  induction fuel as [|f IH]; intros n Hn.
  - cbn [ndigits_go]. destruct (Z.ltb_spec n 10); [lia|].
    change (10 ^ Z.of_nat (Nat.pred 2)) with 10. exact Hn.
  - remember (S f) as f' eqn:Hf'. cbn [ndigits_go].
    destruct (Z.ltb_spec n 10); [lia|]. cbn [Nat.pred].
    destruct (Z.ltb_spec (n / 10) 10) as [Hsmall|Hbig].
    + subst f'. cbn [ndigits_go].
      destruct (Z.ltb_spec (n / 10) 10); [|lia].
      change (10 ^ Z.of_nat 1) with 10. exact Hn.
    + subst f'. specialize (IH _ Hbig).
      remember (ndigits_go (S f) (n / 10)) as k eqn:Hk.
      assert (exists k', k = S k') as [k' ->].
      { rewrite Hk. cbn [ndigits_go].
        destruct (n / 10 <? 10); eexists; reflexivity. }
      cbn [Nat.pred] in IH. rewrite pow10_succ.
      pose proof (Z.div_mod n 10 ltac:(lia)) as Hdm.
      pose proof (Z.mod_pos_bound n 10 ltac:(lia)) as Hmod.
      lia.
Qed.

Lemma ndigits_lower (n : Z) :
  10 <= n -> 10 ^ Z.of_nat (Nat.pred (ndigits n)) <= n.
Proof.
  intros Hn. unfold ndigits.
  assert (1 <= Z.log2 n) as Hlog by (apply Z.log2_le_pow2; simpl; lia).
  destruct (Z.to_nat (Z.log2 n)) as [|f] eqn:Hf; [lia|].
  apply ndigits_go_lower, Hn.
Qed.

Lemma str_int_reads_back (n : Z) :
  0 <= n -> read_digits (ndigits n) 0 (format_d 0 n) = Some (n, "").
Proof.
  intros Hn. unfold format_d.
  destruct (Z.ltb_spec n 0) as [?|_]; [lia|].
  rewrite Nat.max_r by lia.
  rewrite <- (append_empty_r (digits (ndigits n) n)).
  rewrite read_digits_digits by exact Hn.
  rewrite Z.mod_small by (split; [exact Hn | apply ndigits_upper, Hn]).
  reflexivity.
Qed.

(* ===================================================================== *)
(** * [isoformat] writes a valid date-time                               *)
(* ===================================================================== *)

Lemma days_in_month_le (y m : Z) : days_in_month y m <= 31.
Proof.
  unfold days_in_month.
  repeat match goal with |- context [if ?b then _ else _] => destruct b end; lia.
Qed.

Lemma valid_datetime_bounds (d : datetime) :
  valid_datetime d = true ->
  1 <= year d <= 9999 /\ 1 <= month d <= 12 /\
  1 <= day d <= days_in_month (year d) (month d) /\
  0 <= hour d <= 23 /\ 0 <= minute d <= 59 /\ 0 <= second d <= 59 /\
  0 <= microsecond d <= 999999.
Proof.
  unfold valid_datetime. rewrite !andb_true_iff, !Z.leb_le. tauto.
Qed.

Lemma expect_append (c : ascii) (rest : string) :
  expect c (String c "" +:+ rest) = Some rest.
Proof. rewrite append_char. simpl. rewrite Ascii.eqb_refl. reflexivity. Qed.

Lemma read_fraction_microsecond (us : Z) :
  0 <= us <= 999999 ->
  read_fraction (if us =? 0 then "" else "." +:+ format_d 6 us) = Some us.
Proof.
  intros Hus. destruct (Z.eqb_spec us 0) as [->|Hne]; [reflexivity|].
  rewrite append_char. cbn [read_fraction]. rewrite Ascii.eqb_refl.
  rewrite <- (append_empty_r (format_d 6 us)).
  rewrite read_digits_format_d by (change (10 ^ Z.of_nat 6) with 1000000; lia).
  reflexivity.
Qed.

(** One field of the reader: the digits come back, then the separator. *)
Ltac read_field :=
  rewrite read_digits_format_d
    by (first [ change (10 ^ Z.of_nat 4) with 10000
              | change (10 ^ Z.of_nat 2) with 100 ]; lia);
  cbn [mbind option_bind];
  try (rewrite expect_append; cbn [mbind option_bind]).

Lemma parse_isoformat (d : datetime) :
  valid_datetime d = true -> parse_iso8601 (isoformat d) = Some d.
Proof.
  intros Hv.
  destruct (valid_datetime_bounds d Hv) as (Hy & Hm & Hd & Hh & Hmi & Hs & Hus).
  pose proof (days_in_month_le (year d) (month d)) as Hdim.
  unfold parse_iso8601, isoformat.
  do 6 read_field.
  rewrite read_fraction_microsecond by exact Hus.
  cbn [mbind option_bind].
  destruct d as [y mo dd h mi sec us]. simpl in Hv |- *.
  rewrite Hv. reflexivity.
Qed.

(** What [parse_iso8601] accepts is a valid date-time. *)
Lemma parse_iso8601_valid (s : string) (d : datetime) :
  parse_iso8601 s = Some d -> valid_datetime d = true.
Proof.
  unfold parse_iso8601. intros H.
  repeat match type of H with
         | (?m ≫= _) = Some _ =>
             destruct m as [[]|] eqn:?; cbn [mbind option_bind] in H;
             [|discriminate H]
         | (?m ≫= _) = Some _ =>
             destruct m eqn:?; cbn [mbind option_bind] in H; [|discriminate H]
         end.
  match type of H with
  | (if ?b then _ else _) = _ => destruct b eqn:Hb; [|discriminate H]
  end.
  injection H as <-. exact Hb.
Qed.

(* ===================================================================== *)
(** * The renderer: when it raises, and what                             *)
(* ===================================================================== *)

Lemma traverse_raise {A B : Type} (f : A -> outcome B) (xs : list A) (e : exn) :
  traverse f xs = Raise e -> exists x : A, In x xs /\ f x = Raise e.
Proof.
  induction xs as [|x xs IH]; simpl; [discriminate|].
  destruct (f x) as [y|e'] eqn:Hx; cbn [mbind outcome_bind].
  - destruct (traverse f xs) as [ys|e''] eqn:Hxs; cbn [mbind outcome_bind];
      [discriminate|].
    intros [= ->]. destruct (IH eq_refl) as (x' & Hin & Hx').
    exists x'. split; [right; exact Hin | exact Hx'].
  - intros [= ->]. exists x. split; [left; reflexivity | exact Hx].
Qed.

Lemma int_str_raises (I : interpreter) (z : Z) (e : exn) :
  int_str I z = Raise e -> e = ValueError (int_limit_message I).
Proof.
  unfold int_str.
  destruct (_ && _); [intros [= <-]; reflexivity | discriminate].
Qed.

(** An over-long [int] is refused, a shorter one never. *)
Lemma int_str_over_limit (I : interpreter) (z : Z) :
  0 < int_max_str_digits I ->
  10 ^ int_max_str_digits I <= Z.abs z ->
  int_str I z = Raise (ValueError (int_limit_message I)).
Proof.
  intros Hpos Hbig. unfold int_str.
  pose proof (ndigits_upper (Z.abs z) (Z.abs_nonneg z)) as Hup.
  assert (int_max_str_digits I < Z.of_nat (ndigits (Z.abs z))) as Hlt.
  { apply (Z.pow_lt_mono_r_iff 10); [lia | lia |].
    eapply Z.le_lt_trans; [exact Hbig | exact Hup]. }
  apply Z.ltb_lt in Hpos, Hlt. rewrite Hpos, Hlt. reflexivity.
Qed.

Lemma int_str_within_limit (I : interpreter) (z : Z) :
  int_max_str_digits I <= 0 \/ Z.abs z < 10 ^ int_max_str_digits I ->
  int_str I z = Return (format_d 0 z).
Proof.
  intros H. unfold int_str.
  destruct (Z.ltb_spec 0 (int_max_str_digits I)) as [Hpos|Hnone];
    [|reflexivity].
  destruct H as [H|H]; [lia|].
  destruct (Z.ltb_spec (int_max_str_digits I) (Z.of_nat (ndigits (Z.abs z))))
    as [Hlong|Hshort]; [|reflexivity].
  exfalso.
  destruct (Z.lt_ge_cases (Z.abs z) 10) as [Hsmall|Hten].
  - assert (ndigits (Z.abs z) = 1%nat) as Hone.
    { unfold ndigits. destruct (Z.to_nat (Z.log2 (Z.abs z))); simpl;
        [reflexivity|].
      apply Z.ltb_lt in Hsmall. rewrite Hsmall. reflexivity. }
    rewrite Hone in Hlong. lia.
  - pose proof (ndigits_lower (Z.abs z) Hten) as Hlow.
    assert (Z.of_nat (Nat.pred (ndigits (Z.abs z))) < int_max_str_digits I)
      as Hlt.
    { apply (Z.pow_lt_mono_r_iff 10); [lia | lia |].
      eapply Z.le_lt_trans; [exact Hlow | exact H]. }
    lia.
Qed.

Lemma py_repr_raises (I : interpreter) (budget : nat) :
  forall (v : value) (e : exn),
    py_repr I budget v = Raise e ->
    e = ValueError (int_limit_message I) \/
    e = RecursionError recursion_message.
Proof.
  induction budget as [|b IH]; intros v e H.
  - injection H as <-. right. reflexivity.
  - destruct v as [|[|]|z|r|s|xs|kvs]; cbn [py_repr] in H;
      try discriminate H.
    + left. eapply int_str_raises, H.
    + destruct (traverse (py_repr I b) xs) as [parts|e'] eqn:Hxs;
        cbn [mbind outcome_bind] in H; [discriminate H|].
      injection H as ->.
      destruct (traverse_raise _ _ _ Hxs) as (x & _ & Hx).
      eapply IH, Hx.
    + match type of H with
      | (traverse ?f kvs ≫= _) = _ =>
          destruct (traverse f kvs) as [parts|e'] eqn:Hkvs
      end; cbn [mbind outcome_bind] in H; [discriminate H|].
      injection H as ->.
      destruct (traverse_raise _ _ _ Hkvs) as (kv & _ & Hkv).
      destruct (py_repr I b (snd kv)) as [x|e''] eqn:Hx;
        cbn [mbind outcome_bind] in Hkv; [discriminate Hkv|].
      injection Hkv as ->. eapply IH, Hx.
Qed.

Lemma py_format_raises (I : interpreter) (v : value) (e : exn) :
  py_format I v = Raise e ->
  e = ValueError (int_limit_message I) \/
  e = RecursionError recursion_message.
Proof.
  destruct v; cbn [py_format]; try discriminate; apply py_repr_raises.
Qed.

Lemma int_str_fits (I : interpreter) (z : Z) :
  int_fits I z = true <-> exists s : string, int_str I z = Return s.
Proof.
  unfold int_fits. split.
  - intros H. exists (format_d 0 z). apply int_str_within_limit.
    apply orb_true_iff in H. destruct H as [H|H];
      [left; apply Z.leb_le, H | right; apply Z.ltb_lt, H].
  - intros [s Hs].
    destruct (Z.leb_spec (int_max_str_digits I) 0) as [|Hpos]; [reflexivity|].
    destruct (Z.ltb_spec (Z.abs z) (10 ^ int_max_str_digits I)) as [|Hbig];
      [reflexivity|].
    rewrite int_str_over_limit in Hs by assumption. discriminate Hs.
Qed.

Lemma traverse_returns {A B : Type} (f : A -> outcome B) (xs : list A) :
  (exists ys : list B, traverse f xs = Return ys)
  <-> forall x : A, In x xs -> exists y : B, f x = Return y.
Proof.
  induction xs as [|x xs IH]; simpl.
  - split; [intros _ x [] | intros _; eexists; reflexivity].
  - split.
    + intros [ys Hys] x' [<-|Hin].
      * destruct (f x) as [y|e]; [exists y; reflexivity | discriminate Hys].
      * destruct (f x) as [y|e]; [|discriminate Hys].
        cbn [mbind outcome_bind] in Hys.
        destruct (traverse f xs) as [ys'|e] eqn:Hxs; [|discriminate Hys].
        apply (proj1 IH); [eexists; reflexivity | exact Hin].
    + intros Hall.
      destruct (Hall x (or_introl eq_refl)) as [y Hy].
      destruct (proj2 IH (fun x' Hin => Hall x' (or_intror Hin))) as [ys Hys].
      exists (y :: ys). rewrite Hy. cbn [mbind outcome_bind].
      rewrite Hys. reflexivity.
Qed.

(** The renderer returns exactly on the values within the limits. *)
Lemma py_repr_fits (I : interpreter) (budget : nat) :
  forall v : value,
    fits I budget v = true <-> exists s : string, py_repr I budget v = Return s.
Proof.
  induction budget as [|b IH]; intros v.
  - simpl. split; [discriminate | intros [s Hs]; discriminate Hs].
  - destruct v as [|[|]|z|r|s|xs|kvs]; cbn [fits py_repr];
      try (split; [intros _; eexists; reflexivity | reflexivity]).
    + apply int_str_fits.
    + rewrite forallb_forall. split.
      * intros Hall.
        destruct (proj2 (traverse_returns (py_repr I b) xs)) as [parts Hparts].
        { intros x Hin. apply IH, Hall, Hin. }
        rewrite Hparts. eexists. reflexivity.
      * intros [s Hs] x Hin. apply IH.
        destruct (traverse (py_repr I b) xs) as [parts|e] eqn:Hxs;
          [|discriminate Hs].
        apply (proj1 (traverse_returns (py_repr I b) xs));
          [eexists; exact Hxs | exact Hin].
    + rewrite forallb_forall.
      match goal with
      | |- _ <-> (exists _, (traverse ?f kvs ≫= _) = _) => set (item := f)
      end.
      split.
      * intros Hall.
        destruct (proj2 (traverse_returns item kvs)) as [parts Hparts].
        { intros kv Hin. apply Hall, IH in Hin. destruct Hin as [x Hx].
          subst item. cbn beta. rewrite Hx. eexists. reflexivity. }
        rewrite Hparts. eexists. reflexivity.
      * intros [s Hs] kv Hin. apply IH.
        destruct (traverse item kvs) as [parts|e] eqn:Hkvs;
          [|discriminate Hs].
        destruct (proj1 (traverse_returns item kvs)
                    (ex_intro _ _ Hkvs) kv Hin) as [y Hy].
        subst item. cbn beta in Hy.
        destruct (py_repr I b (snd kv)) as [x|e]; [|discriminate Hy].
        exists x. reflexivity.
Qed.

Lemma py_format_renderable (I : interpreter) (v : value) :
  renderable I v = true <-> exists s : string, py_format I v = Return s.
Proof.
  destruct v; cbn [renderable py_format];
    try apply py_repr_fits.
  split; [intros _; eexists; reflexivity | reflexivity].
Qed.

Lemma py_format_int (I : interpreter) (z : Z) :
  (0 < recursion_budget I)%nat -> py_format I (VInt z) = int_str I z.
Proof.
  intros Hb. cbn [py_format].
  destruct (recursion_budget I); [lia | reflexivity].
Qed.

(** The empty list inside [b] lists takes more than [b] nested calls. *)
Lemma py_repr_nested (I : interpreter) (b : nat) :
  py_repr I b (nested b) = Raise (RecursionError recursion_message).
Proof.
  induction b as [|b IH]; [reflexivity|].
  cbn [py_repr nested traverse]. rewrite IH. reflexivity.
Qed.

Lemma py_format_nested (I : interpreter) :
  py_format I (nested (recursion_budget I))
  = Raise (RecursionError recursion_message).
Proof.
  assert (forall k, py_format I (nested k) = py_repr I (recursion_budget I) (nested k))
    as Heq by (intros [|k]; reflexivity).
  rewrite Heq. apply py_repr_nested.
Qed.

Lemma int_limit_message_not_unknown (I : interpreter) :
  startswith "Unknown tool: " (int_limit_message I) = false.
Proof. reflexivity. Qed.

(* ===================================================================== *)
(** * The three branches of [call_tool]                                  *)
(* ===================================================================== *)

Lemma call_tool_hello (arguments : dict) (I : interpreter) (w : world) :
  call_tool "hello" arguments I w =
  match arguments !! "name" with
  | Some v =>
      (match py_format I v with
       | Return s =>
           Return [mkTextContent "text"
                     ("Hello, " +:+ s +:+ "! Welcome to MCP.")]
       | Raise e => Raise e
       end, w)
  | None => (Raise (KeyError "name"), w)
  end.
Proof.
  unfold call_tool, getitem. cbn [String.eqb Ascii.eqb Bool.eqb].
  destruct (arguments !! "name") as [v|]; [|reflexivity].
  unfold mbind, handler_bind, mret, handler_ret, format_value.
  destruct (py_format I v); reflexivity.
Qed.

Lemma call_tool_time (arguments : dict) (I : interpreter) (w : world) :
  call_tool "time" arguments I w =
  (Return [mkTextContent "text"
             ("Current time: " +:+ isoformat (wall_clock w))], w).
Proof. reflexivity. Qed.

Lemma call_tool_other
    (n : string) (arguments : dict) (I : interpreter) (w : world) :
  n <> "hello" -> n <> "time" ->
  call_tool n arguments I w
  = (Raise (ValueError ("Unknown tool: " +:+ n)), w).
Proof.
  intros Hh Ht. unfold call_tool.
  apply String.eqb_neq in Hh. apply String.eqb_neq in Ht.
  rewrite Hh, Ht. reflexivity.
Qed.

Lemma call_tool_hello_not_unknown
    (arguments : dict) (I : interpreter) (w : world) :
  is_unknown_tool (fst (call_tool "hello" arguments I w)) = false.
Proof.
  rewrite call_tool_hello.
  destruct (arguments !! "name") as [v|]; [|reflexivity].
  destruct (py_format I v) as [s|e] eqn:Hv; [reflexivity|].
  destruct (py_format_raises I v e Hv) as [->| ->]; reflexivity.
Qed.

Lemma startswith_refl (s : string) : startswith s s = true.
Proof.
  induction s as [|c s IH]; [reflexivity|].
  simpl. rewrite Ascii.eqb_refl. exact IH.
Qed.

Lemma includes_suffix (sub pre : string) : includes sub (pre +:+ sub) = true.
Proof.
  induction pre as [|c pre IH].
  - change ("" +:+ sub) with sub.
    destruct sub as [|a sub]; [reflexivity|].
    cbn [includes]. rewrite startswith_refl. reflexivity.
  - rewrite append_cons. cbn [includes]. rewrite IH. apply orb_true_r.
Qed.

Lemma is_unknown_tool_iff
    (n : string) (arguments : dict) (I : interpreter) (w : world) :
  is_unknown_tool (fst (call_tool n arguments I w)) = true
  <-> n <> "hello" /\ n <> "time".
Proof.
  split.
  - intros H. split; intros ->.
    + rewrite call_tool_hello_not_unknown in H. discriminate H.
    + rewrite call_tool_time in H. discriminate H.
  - intros [Hh Ht]. rewrite call_tool_other by assumption. reflexivity.
Qed.

(* ===================================================================== *)
(** * The tool registry                                                  *)
(* ===================================================================== *)

(** C3: [list_tools] returns exactly two descriptors, the first named
    "hello" and the second named "time", each with a non-empty
    description. *)
Theorem list_tools_two_descriptors (I : interpreter) (w : world) :
  exists t1 t2 : Tool,
    fst (list_tools I w) = Return [t1; t2] /\
    name t1 = "hello" /\ name t2 = "time" /\
    description t1 <> "" /\ description t2 <> "".
Proof.
  do 2 eexists. split; [reflexivity|].
  repeat split; discriminate.
Qed.

(** C8: [list_tools] is pure: there is one fixed sequence of descriptors
    that every invocation returns, in whatever world and under whatever
    interpreter it runs; it never raises and it leaves the world as it
    found it. *)
Theorem list_tools_pure :
  exists tools : list Tool,
    forall (I : interpreter) (w : world), list_tools I w = (Return tools, w).
Proof. eexists. intros I w. reflexivity. Qed.

(** C6: a name whose dispatch does not end in the "unknown tool" error
    (a name with a branch of its own in [call_tool]) is the name of a
    descriptor that [list_tools] returns. *)
Theorem dispatched_names_registered
    (n : string) (arguments : dict) (I : interpreter) (w : world) :
  is_unknown_tool (fst (call_tool n arguments I w)) = false ->
  In n (registered_names I w).
Proof.
  intros H.
  destruct (String.eqb_spec n "hello") as [->|Hh]; [left; reflexivity|].
  destruct (String.eqb_spec n "time") as [->|Ht]; [right; left; reflexivity|].
  rewrite (proj2 (is_unknown_tool_iff n arguments I w) (conj Hh Ht)) in H.
  discriminate H.
Qed.

Lemma dispatched_names_registered_witness :
  is_unknown_tool (fst (call_tool "time" ∅ an_interpreter a_world)) = false /\
  In "time" (registered_names an_interpreter a_world).
Proof.
  split; [reflexivity|].
  apply (dispatched_names_registered "time" ∅ an_interpreter a_world).
  reflexivity.
Defined.

(* ===================================================================== *)
(** * The dispatcher: "hello"                                            *)
(* ===================================================================== *)

(** C1: with "name" bound to the string [n], "hello" returns exactly one
    text item, "Hello, n! Welcome to MCP.". *)
Theorem call_tool_hello_greets
    (n : string) (arguments : dict) (I : interpreter) (w : world) :
  arguments !! "name" = Some (VStr n) ->
  call_tool "hello" arguments I w =
  (Return [mkTextContent "text" ("Hello, " +:+ n +:+ "! Welcome to MCP.")], w).
Proof. intros H. rewrite call_tool_hello, H. reflexivity. Qed.

Lemma call_tool_hello_greets_witness :
  ({[ "name" := VStr "Ada" ]} : dict) !! "name" = Some (VStr "Ada") /\
  call_tool "hello" {[ "name" := VStr "Ada" ]} an_interpreter a_world =
  (Return [mkTextContent "text" "Hello, Ada! Welcome to MCP."], a_world).
Proof.
  split; [reflexivity|].
  apply (call_tool_hello_greets "Ada"). reflexivity.
Defined.

(** C4, as the code has it: without the key "name", "hello" raises the
    [KeyError] of the failed subscript, carrying the key. *)
Theorem call_tool_hello_missing_name
    (arguments : dict) (I : interpreter) (w : world) :
  arguments !! "name" = None ->
  call_tool "hello" arguments I w = (Raise (KeyError "name"), w).
Proof. intros H. rewrite call_tool_hello, H. reflexivity. Qed.

Lemma call_tool_hello_missing_name_witness :
  (∅ : dict) !! "name" = None /\
  call_tool "hello" ∅ an_interpreter a_world
  = (Raise (KeyError "name"), a_world).
Proof.
  split; [reflexivity|].
  apply (call_tool_hello_missing_name ∅ an_interpreter a_world). reflexivity.
Defined.

(** C4, as stated, fails on the empty mapping: the error "hello" raises
    there is the generic lookup error. *)
Lemma call_tool_hello_missing_name_generic_error :
  (∅ : dict) !! "name" = None /\
  ~ (exists e : exn,
        fst (call_tool "hello" ∅ an_interpreter a_world) = Raise e /\
        is_lookup_error e = false).
Proof.
  split; [reflexivity|].
  intros (e & Hraise & Hkind).
  change (fst (call_tool "hello" ∅ an_interpreter a_world))
    with (@Raise (list TextContent) (KeyError "name")) in Hraise.
  injection Hraise as <-. discriminate Hkind.
Qed.



(** C9: two argument mappings that bind "name" to the same value give the
    same result for "hello", whatever else they hold. *)
Theorem call_tool_hello_noninterference
    (a1 a2 : dict) (v : value) (I : interpreter) (w : world) :
  a1 !! "name" = Some v ->
  a2 !! "name" = Some v ->
  call_tool "hello" a1 I w = call_tool "hello" a2 I w.
Proof. intros H1 H2. rewrite !call_tool_hello, H1, H2. reflexivity. Qed.

Lemma call_tool_hello_noninterference_witness :
  call_tool "hello" {[ "name" := VStr "Ada"; "shout" := VBool true ]}
    an_interpreter a_world =
  call_tool "hello" {[ "name" := VStr "Ada"; "times" := VInt 3 ]}
    an_interpreter a_world.
Proof.
  apply (call_tool_hello_noninterference _ _ (VStr "Ada")); reflexivity.
Defined.

(** C10, as the code has it: "hello" does not check the type of the value
    bound to "name", although the schema that [list_tools] declares for
    "hello" asks for a required string.  For every value of any type
    that the interpreter can format (every [str]; otherwise every [int]
    in it within the digit limit and its nesting within the recursion
    limit) "hello" succeeds and returns one text item, "Hello, " and
    "! Welcome to MCP." around the rendering of the value; for any other
    value it lets out the exception of the rendering, [ValueError] for an
    [int] over the digit limit or [RecursionError]. *)
Theorem call_tool_hello_no_type_check
    (v : value) (arguments : dict) (I : interpreter) (w : world) :
  arguments !! "name" = Some v ->
  (renderable I v = true ->
   exists s : string,
     py_format I v = Return s /\
     call_tool "hello" arguments I w =
     (Return [mkTextContent "text" ("Hello, " +:+ s +:+ "! Welcome to MCP.")],
      w)) /\
  (renderable I v = false ->
   exists e : exn,
     py_format I v = Raise e /\
     (e = ValueError (int_limit_message I) \/
      e = RecursionError recursion_message) /\
     call_tool "hello" arguments I w = (Raise e, w)) /\
  exists (hello : Tool) (others : list Tool),
    fst (list_tools I w) = Return (hello :: others) /\
    name hello = "hello" /\
    declared_type (inputSchema hello) "name" = Some (VStr "string") /\
    declared_required (inputSchema hello) = Some (VList [VStr "name"]).
Proof.
  intros H. split; [|split].
  - intros Hfit. apply py_format_renderable in Hfit as [s Hs].
    exists s. split; [exact Hs|].
    rewrite call_tool_hello, H, Hs. reflexivity.
  - intros Hfit.
    destruct (py_format I v) as [s|e] eqn:Hv.
    + rewrite (proj2 (py_format_renderable I v) (ex_intro _ s Hv)) in Hfit.
      discriminate Hfit.
    + exists e. split; [reflexivity|]. split.
      * eapply py_format_raises, Hv.
      * rewrite call_tool_hello, H, Hv. reflexivity.
  - do 2 eexists. split; [reflexivity|]. repeat split.
Qed.

Lemma call_tool_hello_no_type_check_witness :
  (renderable an_interpreter (VInt 42) = true /\
   call_tool "hello" {[ "name" := VInt 42 ]} an_interpreter a_world =
   (Return [mkTextContent "text" "Hello, 42! Welcome to MCP."], a_world)) /\
  (renderable an_interpreter sample_value = true /\
   call_tool "hello" {[ "name" := sample_value ]} an_interpreter a_world =
   (Return [mkTextContent "text"
              ("Hello, " +:+ sample_text +:+ "! Welcome to MCP.")], a_world)) /\
  (renderable an_interpreter (nested 1000) = false /\
   call_tool "hello" {[ "name" := nested 1000 ]} an_interpreter a_world =
   (Raise (RecursionError recursion_message), a_world)).
Proof.
  split; [|split].
  - assert (({[ "name" := VInt 42 ]} : dict) !! "name" = Some (VInt 42))
      as Hname by reflexivity.
    assert (renderable an_interpreter (VInt 42) = true) as Hfit
      by reflexivity.
    split; [exact Hfit|].
    destruct (proj1 (call_tool_hello_no_type_check
                       (VInt 42) _ an_interpreter a_world Hname) Hfit)
      as (s & Hs & Hcall).
    rewrite Hcall. injection Hs as <-. reflexivity.
  - assert (({[ "name" := sample_value ]} : dict) !! "name"
            = Some sample_value) as Hname by reflexivity.
    assert (renderable an_interpreter sample_value = true) as Hfit
      by reflexivity.
    split; [exact Hfit|].
    destruct (proj1 (call_tool_hello_no_type_check
                       sample_value _ an_interpreter a_world Hname) Hfit)
      as (s & Hs & Hcall).
    rewrite Hcall. injection Hs as <-. reflexivity.
  - assert (({[ "name" := nested 1000 ]} : dict) !! "name"
            = Some (nested 1000)) as Hname by reflexivity.
    assert (renderable an_interpreter (nested 1000) = false) as Hfit
      by reflexivity.
    split; [exact Hfit|].
    destruct (proj1 (proj2 (call_tool_hello_no_type_check
                              (nested 1000) _ an_interpreter a_world Hname))
                Hfit)
      as (e & He & _ & Hcall).
    rewrite Hcall. injection He as <-. reflexivity.
Defined.

(** C10, as stated, fails on values that cannot be rendered: under the
    digit limit 4300 the integer 10^4300, of 4301 digits, makes "hello"
    raise [ValueError], and an empty list inside as many lists as the
    recursion limit admits makes it raise [RecursionError]. *)
Lemma call_tool_hello_unrenderable_name :
  ({[ "name" := VInt (10 ^ 4300) ]} : dict) !! "name"
  = Some (VInt (10 ^ 4300)) /\
  fst (call_tool "hello" {[ "name" := VInt (10 ^ 4300) ]}
         an_interpreter a_world)
  = Raise (ValueError
             ("Exceeds the limit (4300 digits) for integer string conversion; " +:+
              "use sys.set_int_max_str_digits() to increase the limit")) /\
  fst (call_tool "hello" {[ "name" := nested 1000 ]} an_interpreter a_world)
  = Raise (RecursionError
             "maximum recursion depth exceeded while getting the repr of an object").
Proof.
  split; [apply lookup_singleton_eq|]. split.
  - rewrite call_tool_hello, lookup_singleton_eq.
    rewrite py_format_int by (cbn [recursion_budget an_interpreter]; lia).
    rewrite int_str_over_limit.
    + reflexivity.
    + reflexivity.
    + cbn [int_max_str_digits an_interpreter].
      rewrite Z.abs_eq by (apply Z.pow_nonneg; discriminate).
      apply Z.le_refl.
  - rewrite call_tool_hello, lookup_singleton_eq.
    change (nested 1000) with (nested (recursion_budget an_interpreter)).
    rewrite py_format_nested. reflexivity.
Qed.

(* ===================================================================== *)
(** * The dispatcher: "time"                                             *)
(* ===================================================================== *)

(** C5: "time" succeeds for every argument mapping and does not look at
    it; it returns exactly one text item, "Current time: " followed by
    the ISO-8601 text of the wall clock read during the call, and that
    text reads back as the valid date-time the clock showed. *)
Theorem call_tool_time_reports_clock
    (arguments : dict) (I : interpreter) (w : world) :
  valid_datetime (wall_clock w) = true ->
  call_tool "time" arguments I w =
  (Return [mkTextContent "text"
             ("Current time: " +:+ isoformat (wall_clock w))], w) /\
  parse_iso8601 (isoformat (wall_clock w)) = Some (wall_clock w) /\
  forall arguments' : dict,
    call_tool "time" arguments' I w = call_tool "time" arguments I w.
Proof.
  intros Hv. split; [apply call_tool_time|].
  split; [apply parse_isoformat, Hv|].
  intros arguments'. rewrite !call_tool_time. reflexivity.
Qed.

Lemma call_tool_time_reports_clock_witness :
  valid_datetime (wall_clock a_world) = true /\
  call_tool "time" ∅ an_interpreter a_world =
  (Return [mkTextContent "text" "Current time: 2026-11-03T09:05:00.000120"],
   a_world) /\
  parse_iso8601 "2026-11-03T09:05:00.000120" = Some (wall_clock a_world).
Proof.
  split; [reflexivity|].
  destruct (call_tool_time_reports_clock ∅ an_interpreter a_world eq_refl)
    as (Hcall & Hparse & _).
  split; [exact Hcall | exact Hparse].
Defined.

(* ===================================================================== *)
(** * The dispatcher: any other name                                     *)
(* ===================================================================== *)

(** C2: a name other than "hello" and "time" makes [call_tool] raise the
    "unknown tool" error, whose message includes the name; and
    [call_tool] raises that error exactly when the name is neither
    "hello" nor "time". *)
Theorem call_tool_unknown_tool
    (n : string) (arguments : dict) (I : interpreter) (w : world) :
  (n <> "hello" /\ n <> "time" ->
   call_tool n arguments I w
   = (Raise (ValueError ("Unknown tool: " +:+ n)), w) /\
   includes n ("Unknown tool: " +:+ n) = true) /\
  (is_unknown_tool (fst (call_tool n arguments I w)) = true
   <-> n <> "hello" /\ n <> "time").
Proof.
  split.
  - intros [Hh Ht]. split; [apply call_tool_other; assumption|].
    apply includes_suffix.
  - apply is_unknown_tool_iff.
Qed.

Lemma call_tool_unknown_tool_witness :
  ("bogus" <> "hello" /\ "bogus" <> "time") /\
  call_tool "bogus" ∅ an_interpreter a_world =
  (Raise (ValueError "Unknown tool: bogus"), a_world) /\
  includes "bogus" "Unknown tool: bogus" = true /\
  is_unknown_tool (fst (call_tool "bogus" ∅ an_interpreter a_world)) = true.
Proof.
  assert ("bogus" <> "hello" /\ "bogus" <> "time") as Hne
    by (split; discriminate).
  destruct (call_tool_unknown_tool "bogus" ∅ an_interpreter a_world)
    as [Hraise Hiff].
  destruct (Hraise Hne) as [Hcall Hincl].
  split; [exact Hne|].
  split; [exact Hcall|].
  split; [exact Hincl|].
  apply Hiff, Hne.
Defined.

(* ===================================================================== *)
(** * The model on concrete inputs                                       *)
(* ===================================================================== *)

Example format_d_samples :
  format_d 4 2026 = "2026" /\ format_d 2 3 = "03" /\
  format_d 6 120 = "000120" /\ format_d 2 100 = "100" /\
  format_d 4 (-5) = "-005" /\ format_d 0 0 = "0" /\
  format_d 0 (-15) = "-15" /\ format_d 0 1234567890123 = "1234567890123".
Proof. repeat split. Qed.

Example py_format_samples :
  py_format an_interpreter (VStr "Ada") = Return "Ada" /\
  py_format an_interpreter VNone = Return "None" /\
  py_format an_interpreter (VBool true) = Return "True" /\
  py_format an_interpreter (VInt (-7)) = Return "-7" /\
  py_format an_interpreter (VFloat "1.5") = Return "1.5" /\
  py_format an_interpreter (VList [VStr "a"; VInt 1; VNone])
    = Return "['a', 1, None]" /\
  py_format an_interpreter (VList [VStr "it's"])
    = Return (String "[" (String dquote ("it's" +:+ String dquote "]"))) /\
  py_format an_interpreter (VDict [("k", VList []); ("n", VDict [])])
    = Return "{'k': [], 'n': {}}" /\
  py_format an_interpreter sample_value = Return sample_text.
Proof. repeat split. Qed.

(** The recursion budget counts the nested [repr] calls; a [str] at the
    top takes none. *)
Example recursion_budget_samples :
  py_format (mkInterpreter 4300 2) (VList [VList []]) = Return "[[]]" /\
  py_format (mkInterpreter 4300 2) (VList [VList [VList []]])
    = Raise (RecursionError recursion_message) /\
  py_format (mkInterpreter 4300 2) (VList [VInt 1; VList [VInt 2]])
    = Raise (RecursionError recursion_message) /\
  py_format (mkInterpreter 4300 0) (VStr "Ada") = Return "Ada" /\
  py_format (mkInterpreter 4300 0) (VInt 1)
    = Raise (RecursionError recursion_message).
Proof. repeat split. Qed.

Example isoformat_samples :
  isoformat (mkDatetime 2026 11 3 9 5 0 120) = "2026-11-03T09:05:00.000120" /\
  isoformat (mkDatetime 2024 2 29 23 59 59 0) = "2024-02-29T23:59:59" /\
  isoformat (mkDatetime 1 1 1 0 0 0 0) = "0001-01-01T00:00:00".
Proof. repeat split. Qed.

Example parse_iso8601_samples :
  parse_iso8601 "2024-02-29T23:59:59" = Some (mkDatetime 2024 2 29 23 59 59 0) /\
  parse_iso8601 "2023-02-29T23:59:59" = None /\
  parse_iso8601 "2026-11-03T09:05:00.000120" = Some (mkDatetime 2026 11 3 9 5 0 120) /\
  parse_iso8601 "2026-11-03 09:05:00" = None /\
  parse_iso8601 "2026-11-03T24:05:00" = None.
Proof. repeat split. Qed.

Example call_tool_samples :
  fst (call_tool "hello" {[ "name" := VStr "Ada" ]} an_interpreter a_world)
    = Return [mkTextContent "text" "Hello, Ada! Welcome to MCP."] /\
  fst (call_tool "hello" {[ "who" := VStr "Ada" ]} an_interpreter a_world)
    = Raise (KeyError "name") /\
  fst (call_tool "time" ∅ an_interpreter a_world)
    = Return [mkTextContent "text" "Current time: 2026-11-03T09:05:00.000120"] /\
  fst (call_tool "bogus" {[ "name" := VStr "Ada" ]} an_interpreter a_world)
    = Raise (ValueError "Unknown tool: bogus") /\
  fst (call_tool "Hello" {[ "name" := VStr "Ada" ]} an_interpreter a_world)
    = Raise (ValueError "Unknown tool: Hello") /\
  registered_names an_interpreter a_world = ["hello"; "time"].
Proof. repeat split. Qed.

(* ===================================================================== *)
(** * What [call_tool] returns and raises, over all names                *)
(* ===================================================================== *)

(** X1: the only exceptions [call_tool] lets out are [KeyError("name")],
    from "hello" called without the key "name"; the exception of the
    renderer, from "hello" called with a value that cannot be rendered
    ([ValueError] for an [int] over the digit limit, [RecursionError]
    for a nesting beyond the recursion limit); and
    [ValueError("Unknown tool: <name>")], from a name that is neither
    "hello" nor "time". *)
Theorem call_tool_raises_only
    (n : string) (arguments : dict) (I : interpreter) (w : world) (e : exn) :
  fst (call_tool n arguments I w) = Raise e ->
  (n = "hello" /\ arguments !! "name" = None /\ e = KeyError "name") \/
  (n = "hello" /\
   (exists v : value,
       arguments !! "name" = Some v /\ py_format I v = Raise e) /\
   (e = ValueError (int_limit_message I) \/
    e = RecursionError recursion_message)) \/
  (n <> "hello" /\ n <> "time" /\ e = ValueError ("Unknown tool: " +:+ n)).
Proof.
  intros H.
  destruct (String.eqb_spec n "hello") as [->|Hh].
  - rewrite call_tool_hello in H.
    destruct (arguments !! "name") as [v|] eqn:Hv.
    + right. left. cbn [fst] in H.
      destruct (py_format I v) as [s|e'] eqn:Hf; [discriminate H|].
      injection H as ->. split; [reflexivity|]. split.
      * exists v. split; [reflexivity | exact Hf].
      * eapply py_format_raises, Hf.
    + left. injection H as <-. repeat split.
  - destruct (String.eqb_spec n "time") as [->|Ht].
    + rewrite call_tool_time in H. discriminate H.
    + right. right. rewrite call_tool_other in H by assumption.
      injection H as <-. repeat split; assumption.
Qed.

Lemma call_tool_raises_only_witness :
  ("hello" = "hello" /\ (∅ : dict) !! "name" = None /\
   KeyError "name" = KeyError "name") \/
  ("hello" = "hello" /\
   (exists v : value,
       (∅ : dict) !! "name" = Some v /\
       py_format an_interpreter v = Raise (KeyError "name")) /\
   (KeyError "name" = ValueError (int_limit_message an_interpreter) \/
    KeyError "name" = RecursionError recursion_message)) \/
  ("hello" <> "hello" /\ "hello" <> "time" /\
   KeyError "name" = ValueError ("Unknown tool: " +:+ "hello")).
Proof.
  apply (call_tool_raises_only "hello" ∅ an_interpreter a_world (KeyError "name")).
  reflexivity.
Defined.

(** X2: whenever [call_tool] returns, it returns exactly one item, of
    type "text", and the call was "time" or a "hello" with the key
    "name". *)
Theorem call_tool_returns_one_text
    (n : string) (arguments : dict) (I : interpreter) (w : world)
    (items : list TextContent) :
  fst (call_tool n arguments I w) = Return items ->
  (exists t : TextContent, items = [t] /\ type t = "text") /\
  ((n = "hello" /\ is_Some (arguments !! "name")) \/ n = "time").
Proof.
  intros H.
  destruct (String.eqb_spec n "hello") as [->|Hh].
  - rewrite call_tool_hello in H.
    destruct (arguments !! "name") as [v|] eqn:Hv; [|discriminate H].
    cbn [fst] in H. destruct (py_format I v) as [s|e]; [|discriminate H].
    injection H as <-. split; [eexists; split; reflexivity|].
    left. split; [reflexivity | exists v; reflexivity].
  - destruct (String.eqb_spec n "time") as [->|Ht].
    + rewrite call_tool_time in H. injection H as <-.
      split; [eexists; split; reflexivity | right; reflexivity].
    + rewrite call_tool_other in H by assumption. discriminate H.
Qed.

Lemma call_tool_returns_one_text_witness :
  (exists t : TextContent,
      [mkTextContent "text" "Hello, Ada! Welcome to MCP."] = [t] /\
      type t = "text") /\
  (("hello" = "hello" /\
    is_Some (({[ "name" := VStr "Ada" ]} : dict) !! "name")) \/
   "hello" = "time").
Proof.
  apply (call_tool_returns_one_text
           "hello" {[ "name" := VStr "Ada" ]} an_interpreter a_world).
  reflexivity.
Defined.

(** X3: every name that [list_tools] advertises has a branch in
    [call_tool]: calling it never ends in the "unknown tool" error. *)
Theorem registered_names_dispatched
    (n : string) (arguments : dict) (I : interpreter) (w : world) :
  In n (registered_names I w) ->
  is_unknown_tool (fst (call_tool n arguments I w)) = false.
Proof.
  intros [<-|[<-|[]]].
  - apply call_tool_hello_not_unknown.
  - rewrite call_tool_time. reflexivity.
Qed.

Lemma registered_names_dispatched_witness :
  In "hello" (registered_names an_interpreter a_world) /\
  is_unknown_tool (fst (call_tool "hello" ∅ an_interpreter a_world)) = false.
Proof.
  split; [left; reflexivity|].
  apply (registered_names_dispatched "hello" ∅ an_interpreter a_world).
  left. reflexivity.
Defined.

(** X4: a call of a tool that [list_tools] returns ends in a [KeyError]
    exactly when the arguments lack a key that the tool's schema lists
    under "required". *)
Theorem call_tool_key_error_iff_required_missing
    (t : Tool) (tools : list Tool) (arguments : dict)
    (I : interpreter) (w : world) :
  fst (list_tools I w) = Return tools ->
  In t tools ->
  (exists k : string,
      In k (required_keys (inputSchema t)) /\ arguments !! k = None)
  <-> exists k : string,
        fst (call_tool (name t) arguments I w) = Raise (KeyError k).
Proof.
  intros Htools Hin. injection Htools as <-.
  destruct Hin as [<-|[<-|[]]]; cbn [name inputSchema].
  - rewrite call_tool_hello. split.
    + intros (k & [<-|[]] & Hk). rewrite Hk. exists "name". reflexivity.
    + intros [k Hraise].
      destruct (arguments !! "name") as [v|] eqn:Hv.
      * cbn [fst] in Hraise.
        destruct (py_format I v) as [s|e] eqn:Hf; [discriminate Hraise|].
        injection Hraise as ->.
        destruct (py_format_raises I v _ Hf) as [He|He]; discriminate He.
      * exists "name". split; [left; reflexivity | exact Hv].
  - rewrite call_tool_time. split.
    + intros (k & [] & _).
    + intros [k Hraise]. discriminate Hraise.
Qed.

Lemma call_tool_key_error_iff_required_missing_witness :
  (exists k : string, In k ["name"] /\ (∅ : dict) !! k = None)
  <-> exists k : string,
        fst (call_tool "hello" ∅ an_interpreter a_world) = Raise (KeyError k).
Proof.
  apply (call_tool_key_error_iff_required_missing
           (mkTool "hello" "Say hello to someone"
              (VDict [
                ("type", VStr "object");
                ("properties", VDict [
                  ("name", VDict [("type", VStr "string");
                                  ("description", VStr "The name to greet")])
                ]);
                ("required", VList [VStr "name"])
              ]))
           _ ∅ an_interpreter a_world eq_refl).
  left. reflexivity.
Defined.

(** X5: a call with a name other than "time" does not read the clock:
    its result, a return or an exception, is the same in any two
    worlds. *)
Theorem call_tool_reads_clock_only_for_time
    (n : string) (arguments : dict) (I : interpreter) (w1 w2 : world) :
  n <> "time" ->
  fst (call_tool n arguments I w1) = fst (call_tool n arguments I w2).
Proof.
  intros Ht.
  destruct (String.eqb_spec n "hello") as [->|Hh].
  - rewrite !call_tool_hello. destruct (arguments !! "name"); reflexivity.
  - rewrite !call_tool_other by assumption. reflexivity.
Qed.

Lemma call_tool_reads_clock_only_for_time_witness :
  "bogus" <> "time" /\
  fst (call_tool "bogus" ∅ an_interpreter a_world) =
  fst (call_tool "bogus" ∅ an_interpreter
         (mkWorld (mkDatetime 2027 1 1 0 0 0 0))).
Proof.
  assert ("bogus" <> "time") as Hne by discriminate.
  split; [exact Hne|].
  apply (call_tool_reads_clock_only_for_time "bogus" ∅ _ _ _ Hne).
Defined.

(* ===================================================================== *)
(** * The greeting and the value it is built from                        *)
(* ===================================================================== *)

Lemma length_append (s t : string) :
  String.length (s +:+ t) = (String.length s + String.length t)%nat.
Proof.
  induction s as [|c s IH]; [reflexivity|].
  rewrite append_cons. simpl. rewrite IH. reflexivity.
Qed.

Lemma append_cancel_r (t : string) :
  forall x y : string, x +:+ t = y +:+ t -> x = y.
Proof.
  induction x as [|a x IH]; intros [|b y] H.
  - reflexivity.
  - apply (f_equal String.length) in H.
    rewrite !length_append in H. simpl in H. lia.
  - apply (f_equal String.length) in H.
    rewrite !length_append in H. simpl in H. lia.
  - rewrite !append_cons in H. injection H as -> H.
    f_equal. apply IH, H.
Qed.

Lemma append_cancel_l (p : string) :
  forall x y : string, p +:+ x = p +:+ y -> x = y.
Proof.
  induction p as [|c p IH]; intros x y H; [exact H|].
  rewrite !append_cons in H. injection H as H. apply IH, H.
Qed.

(** X6: the result of "hello" depends on the value bound to "name"
    through the outcome of its rendering and nothing else: two calls give
    the same result exactly when the two renderings end alike, in the
    same text or in the same exception.  Two different strings are
    therefore never greeted alike, while the integer 1 and the string
    "1" are. *)
Theorem call_tool_hello_result_iff_rendering
    (a1 a2 : dict) (v1 v2 : value) (I : interpreter) (w : world) :
  a1 !! "name" = Some v1 ->
  a2 !! "name" = Some v2 ->
  call_tool "hello" a1 I w = call_tool "hello" a2 I w
  <-> py_format I v1 = py_format I v2.
Proof.
  intros H1 H2. rewrite !call_tool_hello, H1, H2. split.
  - intros H.
    destruct (py_format I v1) as [s1|e1], (py_format I v2) as [s2|e2];
      try discriminate H.
    + injection H as H.
      apply append_cancel_l in H. apply append_cancel_r in H.
      rewrite H. reflexivity.
    + injection H as ->. reflexivity.
  - intros ->. reflexivity.
Qed.

Lemma call_tool_hello_result_iff_rendering_witness :
  call_tool "hello" {[ "name" := VInt 1 ]} an_interpreter a_world =
  call_tool "hello" {[ "name" := VStr "1" ]} an_interpreter a_world.
Proof.
  apply (call_tool_hello_result_iff_rendering
           {[ "name" := VInt 1 ]} {[ "name" := VStr "1" ]}
           (VInt 1) (VStr "1") an_interpreter a_world);
    reflexivity.
Defined.

(* ===================================================================== *)
(** * The text of "time"                                                 *)
(* ===================================================================== *)

(** X7: the text of "time" identifies the clock reading: two calls that
    return the same result read the same date-time. *)
Theorem call_tool_time_identifies_clock
    (a1 a2 : dict) (I : interpreter) (w1 w2 : world) :
  valid_datetime (wall_clock w1) = true ->
  valid_datetime (wall_clock w2) = true ->
  fst (call_tool "time" a1 I w1) = fst (call_tool "time" a2 I w2) ->
  wall_clock w1 = wall_clock w2.
Proof.
  intros Hv1 Hv2 H. rewrite !call_tool_time in H.
  injection H as H. apply append_cancel_l in H.
  apply parse_isoformat in Hv1, Hv2.
  rewrite H in Hv1. rewrite Hv1 in Hv2. injection Hv2 as ->. reflexivity.
Qed.

Lemma call_tool_time_identifies_clock_witness :
  valid_datetime (wall_clock a_world) = true /\
  wall_clock a_world = wall_clock a_world.
Proof.
  split; [reflexivity|].
  apply (call_tool_time_identifies_clock ∅ {[ "name" := VStr "Ada" ]}
           an_interpreter a_world a_world); reflexivity.
Defined.

Lemma digits_length (w : nat) (n : Z) : String.length (digits w n) = w.
Proof. induction w as [|w IH]; [reflexivity|]. simpl. rewrite IH. reflexivity. Qed.

(** Within the invariant every field fills its width exactly. *)
Lemma isoformat_digits (d : datetime) :
  valid_datetime d = true ->
  isoformat d =
  digits 4 (year d) +:+ "-" +:+ digits 2 (month d) +:+ "-" +:+
  digits 2 (day d) +:+ "T" +:+ digits 2 (hour d) +:+ ":" +:+
  digits 2 (minute d) +:+ ":" +:+ digits 2 (second d) +:+
  (if microsecond d =? 0 then "" else "." +:+ digits 6 (microsecond d)).
Proof.
  intros Hv.
  destruct (valid_datetime_bounds d Hv) as (Hy & Hm & Hd & Hh & Hmi & Hs & Hus).
  pose proof (days_in_month_le (year d) (month d)) as Hdim.
  unfold isoformat.
  rewrite (format_d_digits 4 (year d))
    by (change (10 ^ Z.of_nat 4) with 10000; lia).
  rewrite (format_d_digits 2 (month d)), (format_d_digits 2 (day d)),
    (format_d_digits 2 (hour d)), (format_d_digits 2 (minute d)),
    (format_d_digits 2 (second d))
    by (change (10 ^ Z.of_nat 2) with 100; lia).
  rewrite (format_d_digits 6 (microsecond d))
    by (change (10 ^ Z.of_nat 6) with 1000000; lia).
  reflexivity.
Qed.

(** X8: the text of "time" has one of two lengths: 33 characters when
    the clock shows a whole second, 40 (with the six-digit fraction)
    otherwise. *)
Theorem call_tool_time_text_length
    (arguments : dict) (I : interpreter) (w : world) (t : TextContent) :
  valid_datetime (wall_clock w) = true ->
  fst (call_tool "time" arguments I w) = Return [t] ->
  String.length (text t) =
  if microsecond (wall_clock w) =? 0 then 33%nat else 40%nat.
Proof.
  intros Hv H. rewrite call_tool_time in H. injection H as <-.
  cbn [text]. rewrite (isoformat_digits _ Hv).
  rewrite !length_append, !digits_length.
  destruct (microsecond (wall_clock w) =? 0).
  - reflexivity.
  - rewrite length_append, digits_length. reflexivity.
Qed.

Lemma call_tool_time_text_length_witness :
  valid_datetime (wall_clock a_world) = true /\
  String.length "Current time: 2026-11-03T09:05:00.000120" = 40%nat.
Proof.
  split; [reflexivity|].
  apply (call_tool_time_text_length ∅ an_interpreter a_world
           (mkTextContent "text" "Current time: 2026-11-03T09:05:00.000120")
           eq_refl eq_refl).
Defined.

(** ** Texts of "time" sort as the clock readings do *)

Lemma compare_digit_char (a b : Z) :
  0 <= a < 10 -> 0 <= b < 10 ->
  Ascii.compare (digit_char a) (digit_char b) = (a ?= b).
Proof.
  intros Ha Hb. unfold Ascii.compare, digit_char.
  rewrite !N_ascii_embedding by lia.
  rewrite Z2N.inj_compare by lia.
  apply Z.add_compare_mono_l.
Qed.

Lemma compare_same_char (c : ascii) (s t : string) :
  String.compare (String c "" +:+ s) (String c "" +:+ t) = String.compare s t.
Proof.
  rewrite !append_char. simpl.
  unfold Ascii.compare. rewrite N.compare_refl. reflexivity.
Qed.

Lemma compare_append_l (p s t : string) :
  String.compare (p +:+ s) (p +:+ t) = String.compare s t.
Proof.
  induction p as [|c p IH]; [reflexivity|].
  rewrite !append_cons. simpl.
  unfold Ascii.compare. rewrite N.compare_refl. exact IH.
Qed.

Lemma compare_digits (w : nat) :
  forall (a b : Z) (s t : string),
    0 <= a -> 0 <= b ->
    String.compare (digits w a +:+ s) (digits w b +:+ t)
    = lexico (a mod 10 ^ Z.of_nat w ?= b mod 10 ^ Z.of_nat w)
             (String.compare s t).
Proof.
  induction w as [|w IH]; intros a b s t Ha Hb.
  - simpl digits. rewrite !Z.mod_1_r. reflexivity.
  - pose proof (pow10_pos w) as Hpos.
    cbn [digits]. rewrite !append_cons. cbn [String.compare].
    set (P := 10 ^ Z.of_nat w) in *.
    assert (0 <= (a / P) mod 10 < 10) as Hda by (apply Z.mod_pos_bound; lia).
    assert (0 <= (b / P) mod 10 < 10) as Hdb by (apply Z.mod_pos_bound; lia).
    rewrite compare_digit_char by assumption.
    rewrite IH by assumption. fold P.
    rewrite pow10_succ. fold P. rewrite (Z.mul_comm 10 P).
    rewrite (Z.rem_mul_r a P 10), (Z.rem_mul_r b P 10) by lia.
    assert (0 <= a mod P < P) as Ham by (apply Z.mod_pos_bound; lia).
    assert (0 <= b mod P < P) as Hbm by (apply Z.mod_pos_bound; lia).
    set (da := (a / P) mod 10) in *. set (db := (b / P) mod 10) in *.
    set (am := a mod P) in *. set (bm := b mod P) in *.
    destruct (Z.compare_spec da db) as [Heq|Hlt|Hgt]; cbn [lexico].
    + rewrite Heq, (Z.add_comm am), (Z.add_comm bm), Z.add_compare_mono_l.
      reflexivity.
    + assert (am + P * da < bm + P * db) as Hlt' by nia.
      apply Z.compare_lt_iff in Hlt'. rewrite Hlt'. reflexivity.
    + assert (bm + P * db < am + P * da) as Hgt' by nia.
      apply Z.compare_gt_iff in Hgt'. rewrite Hgt'. reflexivity.
Qed.

Lemma compare_digits_small (w : nat) (a b : Z) (s t : string) :
  0 <= a < 10 ^ Z.of_nat w -> 0 <= b < 10 ^ Z.of_nat w ->
  String.compare (digits w a +:+ s) (digits w b +:+ t)
  = lexico (a ?= b) (String.compare s t).
Proof.
  intros Ha Hb. rewrite compare_digits by lia.
  rewrite !Z.mod_small by assumption. reflexivity.
Qed.

Lemma compare_fraction (u1 u2 : Z) :
  0 <= u1 <= 999999 -> 0 <= u2 <= 999999 ->
  String.compare (if u1 =? 0 then "" else "." +:+ digits 6 u1)
                 (if u2 =? 0 then "" else "." +:+ digits 6 u2)
  = (u1 ?= u2).
Proof.
  intros H1 H2.
  destruct (Z.eqb_spec u1 0) as [->|Hn1]; destruct (Z.eqb_spec u2 0) as [->|Hn2].
  - reflexivity.
  - rewrite append_char. change (Lt = (0 ?= u2)).
    symmetry. apply Z.compare_lt_iff. lia.
  - rewrite append_char. change (Gt = (u1 ?= 0)).
    symmetry. apply Z.compare_gt_iff. lia.
  - rewrite compare_same_char.
    rewrite <- (append_empty_r (digits 6 u1)), <- (append_empty_r (digits 6 u2)).
    rewrite compare_digits_small
      by (change (10 ^ Z.of_nat 6) with 1000000; lia).
    simpl. destruct (u1 ?= u2); reflexivity.
Qed.

Lemma isoformat_compare (d1 d2 : datetime) :
  valid_datetime d1 = true -> valid_datetime d2 = true ->
  String.compare (isoformat d1) (isoformat d2) = datetime_compare d1 d2.
Proof.
  intros Hv1 Hv2.
  rewrite (isoformat_digits d1 Hv1), (isoformat_digits d2 Hv2).
  destruct (valid_datetime_bounds d1 Hv1) as (Hy1 & Hm1 & Hd1 & Hh1 & Hmi1 & Hs1 & Hus1).
  destruct (valid_datetime_bounds d2 Hv2) as (Hy2 & Hm2 & Hd2 & Hh2 & Hmi2 & Hs2 & Hus2).
  pose proof (days_in_month_le (year d1) (month d1)) as Hdim1.
  pose proof (days_in_month_le (year d2) (month d2)) as Hdim2.
  unfold datetime_compare.
  rewrite compare_digits_small by (change (10 ^ Z.of_nat 4) with 10000; lia).
  rewrite compare_same_char.
  do 4 (rewrite compare_digits_small by (change (10 ^ Z.of_nat 2) with 100; lia);
        rewrite compare_same_char).
  rewrite compare_digits_small by (change (10 ^ Z.of_nat 2) with 100; lia).
  rewrite compare_fraction by assumption.
  reflexivity.
Qed.

(** X9: the texts of two "time" calls compare, as strings, the way the
    two clock readings compare as date-times: a later reading gives a
    later text, an equal reading the same text. *)
Theorem call_tool_time_text_order
    (a1 a2 : dict) (I : interpreter) (w1 w2 : world) (t1 t2 : TextContent) :
  valid_datetime (wall_clock w1) = true ->
  valid_datetime (wall_clock w2) = true ->
  fst (call_tool "time" a1 I w1) = Return [t1] ->
  fst (call_tool "time" a2 I w2) = Return [t2] ->
  String.compare (text t1) (text t2)
  = datetime_compare (wall_clock w1) (wall_clock w2).
Proof.
  intros Hv1 Hv2 H1 H2. rewrite call_tool_time in H1, H2.
  injection H1 as <-. injection H2 as <-. cbn [text].
  rewrite compare_append_l. apply isoformat_compare; assumption.
Qed.

Lemma call_tool_time_text_order_witness :
  String.compare "Current time: 2026-11-03T09:05:00.000120"
                 "Current time: 2026-11-03T09:05:01"
  = Lt.
Proof.
  apply (call_tool_time_text_order ∅ ∅ an_interpreter
           a_world (mkWorld (mkDatetime 2026 11 3 9 5 1 0))
           (mkTextContent "text" "Current time: 2026-11-03T09:05:00.000120")
           (mkTextContent "text" "Current time: 2026-11-03T09:05:01"));
    reflexivity.
Defined.

(* ===================================================================== *)
(** * The registry is consistent                                         *)
(* ===================================================================== *)

(** X10: the descriptors [list_tools] returns have pairwise different
    names; each schema is an object schema, and every key it lists under
    "required" is one of its declared properties. *)
Theorem list_tools_schemas_consistent
    (I : interpreter) (w : world) (tools : list Tool) :
  fst (list_tools I w) = Return tools ->
  List.NoDup (map name tools) /\
  Forall (fun t : Tool =>
            subscript "type" (inputSchema t) = Some (VStr "object") /\
            forall k : string,
              In k (required_keys (inputSchema t)) ->
              In k (declared_properties (inputSchema t)))
         tools.
Proof.
  intros H. injection H as <-. split.
  - apply List.NoDup_cons; [intros [H|[]]; discriminate H|].
    apply List.NoDup_cons; [intros []|]. apply List.NoDup_nil.
  - constructor.
    + split; [reflexivity|]. intros k Hk. exact Hk.
    + constructor; [|constructor].
      split; [reflexivity|]. intros k [].
Qed.

Lemma list_tools_schemas_consistent_witness :
  List.NoDup ["hello"; "time"].
Proof.
  exact (proj1 (list_tools_schemas_consistent
                  an_interpreter a_world _ eq_refl)).
Defined.

(* ===================================================================== *)
(** * The "unknown tool" error and the name it carries                   *)
(* ===================================================================== *)

(** X11: the "unknown tool" error identifies the rejected name: two
    unregistered names that are rejected with the same error are the same
    name. *)
Theorem call_tool_unknown_tool_identifies_name
    (n1 n2 : string) (a1 a2 : dict) (I : interpreter) (w1 w2 : world) :
  n1 <> "hello" -> n1 <> "time" ->
  n2 <> "hello" -> n2 <> "time" ->
  fst (call_tool n1 a1 I w1) = fst (call_tool n2 a2 I w2) ->
  n1 = n2.
Proof.
  intros Hh1 Ht1 Hh2 Ht2 H.
  rewrite !call_tool_other in H by assumption.
  injection H as H. apply append_cancel_l in H. exact H.
Qed.

Lemma call_tool_unknown_tool_identifies_name_witness :
  ("bogus" <> "hello" /\ "bogus" <> "time") /\ "bogus" = "bogus".
Proof.
  assert ("bogus" <> "hello") as Hh by discriminate.
  assert ("bogus" <> "time") as Ht by discriminate.
  split; [split; assumption|].
  apply (call_tool_unknown_tool_identifies_name
           "bogus" "bogus" ∅ {[ "name" := VStr "Ada" ]} an_interpreter
           a_world (mkWorld (mkDatetime 2027 1 1 0 0 0 0)) Hh Ht Hh Ht).
  reflexivity.
Defined.
